(** * docling/cli/models.py : the [download] command

    A shallow embedding of the model-download command line front end.
    The command validates its selection options, optionally configures
    logging, resolves the list of models to fetch, calls the external
    [download_models] collaborator once and reports the directory it
    returned.

    Effects are modelled by a small monad that threads the logging
    configuration of the process, records every effect of the command in
    a trace, and short-circuits on a raised exception. *)

From Stdlib Require Import String Ascii List Bool Permutation.
Import ListNotations.
Local Open Scope string_scope.

(** ** Data model *)

(** [class _AvailableModels(str, Enum)], members in definition order. *)
Inductive _AvailableModels : Type :=
| LAYOUT
| TABLEFORMER
| CODE_FORMULA
| PICTURE_CLASSIFIER
| SMOLVLM
| SMOLDOCLING
| SMOLDOCLING_MLX
| GRANITE_VISION
| EASYOCR.

(** The string value carried by each member. *)
Definition value (m : _AvailableModels) : string :=
  match m with
  | LAYOUT => "layout"
  | TABLEFORMER => "tableformer"
  | CODE_FORMULA => "code_formula"
  | PICTURE_CLASSIFIER => "picture_classifier"
  | SMOLVLM => "smolvlm"
  | SMOLDOCLING => "smoldocling"
  | SMOLDOCLING_MLX => "smoldocling_mlx"
  | GRANITE_VISION => "granite_vision"
  | EASYOCR => "easyocr"
  end.

(** [list(_AvailableModels)]: iteration over the enumeration yields the
    members in definition order. *)
Definition list__AvailableModels : list _AvailableModels :=
  [LAYOUT; TABLEFORMER; CODE_FORMULA; PICTURE_CLASSIFIER; SMOLVLM;
   SMOLDOCLING; SMOLDOCLING_MLX; GRANITE_VISION; EASYOCR].

Definition _default_models : list _AvailableModels :=
  [LAYOUT; TABLEFORMER; CODE_FORMULA; PICTURE_CLASSIFIER; EASYOCR].

(** Equality of two members: the enumeration mixes in [str], so [==] is
    the comparison of the string values. *)
Definition model_eqb (a b : _AvailableModels) : bool :=
  String.eqb (value a) (value b).

(** [x in l] on a Python list: some element compares equal to [x]. *)
Definition py_in (x : _AvailableModels) (l : list _AvailableModels) : bool :=
  existsb (model_eqb x) l.

(** Truth value of the [models] argument, of type
    [Optional[list[_AvailableModels]]]: [None] and the empty list are
    false, every other list is true. *)
Definition truthy (models : option (list _AvailableModels)) : bool :=
  match models with
  | Some (_ :: _) => true
  | _ => false
  end.

(** [models or other]: the left operand when it is true, else the right
    one. *)
Definition py_or (models : option (list _AvailableModels))
  (other : list _AvailableModels) : list _AvailableModels :=
  match models with
  | Some (m :: l) => m :: l
  | _ => other
  end.

(** Line 101: [to_download = models or (list(_AvailableModels) if all
    else _default_models)]. *)
Definition to_download (models : option (list _AvailableModels)) (all : bool)
  : list _AvailableModels :=
  py_or models (if all then list__AvailableModels else _default_models).

(** Paths are kept as the text they print as. *)
Definition Path : Type := string.

(** The keyword arguments of the call to [download_models]. *)
Record DownloadArgs : Type := mkArgs {
  output_dir : Path;
  force : bool;
  progress : bool;
  with_layout : bool;
  with_tableformer : bool;
  with_code_formula : bool;
  with_picture_classifier : bool;
  with_smolvlm : bool;
  with_smoldocling : bool;
  with_smoldocling_mlx : bool;
  with_granite_vision : bool;
  with_easyocr : bool
}.

(** Lines 102-115: the keyword arguments built from the command's
    options and the resolved list. *)
Definition download_models_kwargs (od : Path) (frc quiet : bool)
  (sel : list _AvailableModels) : DownloadArgs :=
  {| output_dir := od;
     force := frc;
     progress := negb quiet;
     with_layout := py_in LAYOUT sel;
     with_tableformer := py_in TABLEFORMER sel;
     with_code_formula := py_in CODE_FORMULA sel;
     with_picture_classifier := py_in PICTURE_CLASSIFIER sel;
     with_smolvlm := py_in SMOLVLM sel;
     with_smoldocling := py_in SMOLDOCLING sel;
     with_smoldocling_mlx := py_in SMOLDOCLING_MLX sel;
     with_granite_vision := py_in GRANITE_VISION sel;
     with_easyocr := py_in EASYOCR sel |}.

(** The [with_*] keyword that belongs to a model identifier. *)
Definition with_flag (m : _AvailableModels) (a : DownloadArgs) : bool :=
  match m with
  | LAYOUT => with_layout a
  | TABLEFORMER => with_tableformer a
  | CODE_FORMULA => with_code_formula a
  | PICTURE_CLASSIFIER => with_picture_classifier a
  | SMOLVLM => with_smolvlm a
  | SMOLDOCLING => with_smoldocling a
  | SMOLDOCLING_MLX => with_smoldocling_mlx a
  | GRANITE_VISION => with_granite_vision a
  | EASYOCR => with_easyocr a
  end.

(** The arguments of [logging.basicConfig] on lines 95-100;
    [logging.INFO] is the level 20. *)
Record BasicConfig : Type := mkBasicConfig {
  level : nat;
  format : string;
  datefmt : string;
  rich_show_level : bool;
  rich_show_time : bool;
  rich_markup : bool
}.

Definition rich_config : BasicConfig :=
  {| level := 20;
     format := "[blue]%(message)s[/blue]";
     datefmt := "[%X]";
     rich_show_level := false;
     rich_show_time := false;
     rich_markup := true |}.

(** The logging configuration of the process: [None] while the root
    logger has no handler. *)
Definition Logging : Type := option BasicConfig.

(** Every effect of the command, in the order it happens. *)
Inductive Event : Type :=
| EvBasicConfig (c : BasicConfig)
| EvDownloadModels (a : DownloadArgs)
| EvEcho (msg : string)
| EvSecho (msg : string) (fg : string)
| EvConsolePrint (parts : list string).

Definition nl : string := String (ascii_of_nat 10) EmptyString.

(** The objects handed to standard output by an effect: [typer.echo],
    [typer.secho] and the default [Console] all write there. *)
Definition stdout_of (e : Event) : list string :=
  match e with
  | EvEcho msg => [msg]
  | EvSecho msg _ => [msg]
  | EvConsolePrint parts => parts
  | EvBasicConfig _ => []
  | EvDownloadModels _ => []
  end.

Definition stdout (tr : list Event) : list string := flat_map stdout_of tr.

(** The calls to [download_models] recorded in a trace. *)
Definition dispatched_of (e : Event) : list DownloadArgs :=
  match e with
  | EvDownloadModels a => [a]
  | _ => []
  end.

Definition dispatched (tr : list Event) : list DownloadArgs :=
  flat_map dispatched_of tr.

Definition is_basicConfig (e : Event) : bool :=
  match e with
  | EvBasicConfig _ => true
  | _ => false
  end.

(** Whether a trace contains a call to [logging.basicConfig]. *)
Definition configures_logging (tr : list Event) : bool :=
  existsb is_basicConfig tr.

(** Two collaborators to run the command on: one that fills the
    directory it is given and returns it, one that always raises. *)
Definition returning_downloader (a : DownloadArgs) : string + Path :=
  inr (output_dir a).

Definition failing_downloader (a : DownloadArgs) : string + Path :=
  inl "ConnectionError".


(** ** The command monad *)

Section Command.

(** The exceptions of the external downloader and the downloader
    itself: an opaque capability that either raises or returns the
    directory it filled. *)
Variable Exn : Type.
Variable download_models : DownloadArgs -> Exn + Path.

Inductive Raised : Type :=
| BadParameter (msg : string)
| Propagated (e : Exn).

Record Run (A : Type) : Type := mkRun {
  trace : list Event;
  logging_after : Logging;
  outcome : Raised + A
}.
Arguments mkRun {A}.
Arguments trace {A}.
Arguments logging_after {A}.
Arguments outcome {A}.

Definition M (A : Type) : Type := Logging -> Run A.

Definition ret {A} (x : A) : M A :=
  fun lg => mkRun [] lg (inr x).

Definition bind {A B} (c : M A) (k : A -> M B) : M B :=
  fun lg =>
    let r := c lg in
    match outcome r with
    | inl e => mkRun (trace r) (logging_after r) (inl e)
    | inr x =>
        let r' := k x (logging_after r) in
        mkRun (trace r ++ trace r') (logging_after r') (outcome r')
    end.

Definition raise {A} (e : Raised) : M A :=
  fun lg => mkRun [] lg (inl e).

Definition emit (e : Event) : M unit :=
  fun lg => mkRun [e] lg (inr tt).

Notation "x <- c ;; k" := (bind c (fun x => k))
  (at level 61, c at next level, right associativity).
Notation "c ;; k" := (bind c (fun _ => k))
  (at level 61, right associativity).

(** [logging.basicConfig(...)] without [force]: installs the
    configuration unless the root logger already has a handler. *)
Definition logging_basicConfig (c : BasicConfig) : M unit :=
  fun lg =>
    mkRun [EvBasicConfig c]
          (match lg with None => Some c | Some c0 => Some c0 end)
          (inr tt).

(** The call to the collaborator: what it raises is raised here. *)
Definition call_download_models (a : DownloadArgs) : M Path :=
  fun lg =>
    mkRun [EvDownloadModels a] lg
          (match download_models a with
           | inl e => inl (Propagated e)
           | inr p => inr p
           end).

Definition typer_echo (msg : string) : M unit := emit (EvEcho msg).
Definition typer_secho (msg fg : string) : M unit := emit (EvSecho msg fg).
Definition console_print (parts : list string) : M unit :=
  emit (EvConsolePrint parts).

(** ** The command (lines 51-129) *)

Definition download (output_dir : Path) (force : bool)
  (models : option (list _AvailableModels)) (all quiet : bool) : M unit :=
  (if truthy models && all
   then raise (BadParameter
     "Cannot simultaneously set 'all' parameter and specify models to download.")
   else ret tt) ;;
  (if negb quiet then logging_basicConfig rich_config else ret tt) ;;
  let to_download := to_download models all in
  output_dir <- call_download_models
    (download_models_kwargs output_dir force quiet to_download) ;;
  if quiet then typer_echo output_dir
  else
    typer_secho (nl ++ "Models downloaded into: " ++ output_dir ++ ".") "green" ;;
    console_print
      [nl;
       "Docling can now be configured for running offline using the local artifacts."
         ++ nl ++ nl;
       "Using the CLI:";
       "`docling --artifacts-path=" ++ output_dir ++ " FILE`";
       nl;
       "Using Python: see the documentation at <https://docling-project.github.io/docling/usage>."].


(** What the command writes after a successful dispatch. *)
Definition report (quiet : bool) (p : Path) : list Event :=
  if quiet then [EvEcho p]
  else
    [EvSecho (nl ++ "Models downloaded into: " ++ p ++ ".") "green";
     EvConsolePrint
       [nl;
        "Docling can now be configured for running offline using the local artifacts."
          ++ nl ++ nl;
        "Using the CLI:";
        "`docling --artifacts-path=" ++ p ++ " FILE`";
        nl;
        "Using Python: see the documentation at <https://docling-project.github.io/docling/usage>."]].

Definition setup (quiet : bool) : list Event :=
  if quiet then [] else [EvBasicConfig rich_config].

Definition logging_setup (quiet : bool) (lg : Logging) : Logging :=
  if quiet then lg
  else match lg with None => Some rich_config | Some c0 => Some c0 end.

(** ** Membership in the resolved list *)

Lemma value_inj (a b : _AvailableModels) : value a = value b -> a = b.
Proof. destruct a, b; simpl; intros H; try reflexivity; discriminate H. Qed.

Lemma model_eqb_eq (a b : _AvailableModels) : model_eqb a b = true <-> a = b.
Proof.
  unfold model_eqb. rewrite String.eqb_eq. split.
  - apply value_inj.
  - intros ->. reflexivity.
Qed.

Lemma py_in_In (x : _AvailableModels) (l : list _AvailableModels) :
  py_in x l = true <-> In x l.
Proof.
  unfold py_in. rewrite existsb_exists. split.
  - intros [y [Hy Heq]]. apply model_eqb_eq in Heq. subst y. exact Hy.
  - intros H. exists x. split; [exact H | now apply model_eqb_eq].
Qed.

Lemma py_in_same (l1 l2 : list _AvailableModels) :
  (forall m, In m l1 <-> In m l2) -> forall x, py_in x l1 = py_in x l2.
Proof.
  intros H x. apply eq_true_iff_eq. rewrite !py_in_In. apply H.
Qed.

Lemma with_flag_kwargs (m : _AvailableModels) (od : Path) (frc quiet : bool)
  (sel : list _AvailableModels) :
  with_flag m (download_models_kwargs od frc quiet sel) = py_in m sel.
Proof. destruct m; reflexivity. Qed.

Lemma kwargs_same (od : Path) (frc quiet : bool) (l1 l2 : list _AvailableModels) :
  (forall m, In m l1 <-> In m l2) ->
  download_models_kwargs od frc quiet l1 = download_models_kwargs od frc quiet l2.
Proof.
  intros H. unfold download_models_kwargs.
  now rewrite !(py_in_same l1 l2 H).
Qed.

Lemma truthy_same (l1 l2 : list _AvailableModels) :
  (forall m, In m l1 <-> In m l2) -> truthy (Some l1) = truthy (Some l2).
Proof.
  intros H. destruct l1 as [|a l1], l2 as [|b l2]; try reflexivity.
  - exfalso. apply (proj2 (H b)). now left.
  - exfalso. apply (proj1 (H a)). now left.
Qed.

Lemma to_download_truthy (l : list _AvailableModels) (all : bool) :
  truthy (Some l) = true -> to_download (Some l) all = l.
Proof. destruct l; [discriminate | reflexivity]. Qed.

Lemma to_download_falsy (models : option (list _AvailableModels)) (all : bool) :
  truthy models = false ->
  to_download models all = if all then list__AvailableModels else _default_models.
Proof. destruct models as [[|m l]|]; [reflexivity | discriminate | reflexivity]. Qed.

(** ** Runs of the command *)

Lemma run_rejected od frc models all quiet lg :
  truthy models && all = true ->
  download od frc models all quiet lg =
    mkRun [] lg (inl (BadParameter
      "Cannot simultaneously set 'all' parameter and specify models to download.")).
Proof.
  intros H. unfold download, bind. rewrite H. reflexivity.
Qed.

Lemma run_raised od frc models all quiet lg e :
  truthy models && all = false ->
  download_models
    (download_models_kwargs od frc quiet (to_download models all)) = inl e ->
  download od frc models all quiet lg =
    mkRun (setup quiet ++
           [EvDownloadModels
              (download_models_kwargs od frc quiet (to_download models all))])%list
          (logging_setup quiet lg) (inl (Propagated e)).
Proof.
  intros H He. unfold download, bind, call_download_models.
  rewrite H. destruct quiet; simpl; simpl in He; rewrite He; reflexivity.
Qed.

Lemma run_returned od frc models all quiet lg p :
  truthy models && all = false ->
  download_models
    (download_models_kwargs od frc quiet (to_download models all)) = inr p ->
  download od frc models all quiet lg =
    mkRun (setup quiet ++
           EvDownloadModels
             (download_models_kwargs od frc quiet (to_download models all))
           :: report quiet p)%list
          (logging_setup quiet lg) (inr tt).
Proof.
  intros H Hp. unfold download, bind, call_download_models.
  rewrite H. destruct quiet; simpl; simpl in Hp; rewrite Hp; reflexivity.
Qed.

(** Past validation the trace starts with the optional logging set-up
    followed by the single call to the collaborator. *)
Lemma run_dispatch od frc models all quiet lg :
  truthy models && all = false ->
  exists rest,
    trace (download od frc models all quiet lg) =
      (setup quiet ++
       EvDownloadModels
         (download_models_kwargs od frc quiet (to_download models all)) :: rest)%list
    /\ dispatched rest = []
    /\ configures_logging rest = false
    /\ logging_after (download od frc models all quiet lg) = logging_setup quiet lg.
Proof.
  intros H.
  destruct (download_models
    (download_models_kwargs od frc quiet (to_download models all))) as [e|p] eqn:E.
  - exists []. rewrite (run_raised _ _ _ _ _ _ _ H E). simpl. auto.
  - exists (report quiet p). rewrite (run_returned _ _ _ _ _ _ _ H E). simpl.
    destruct quiet; auto.
Qed.

(** ** Properties of the command *)

(** C1: an invocation with a non-empty explicit model list together with
    [--all] raises the parameter error, and it does so before anything
    else: the trace is empty, so [download_models] is not called and
    [logging.basicConfig] is not called, and the logging configuration is
    the one the process had. *)
Theorem C1_models_and_all_rejected od frc m l quiet lg :
  outcome (download od frc (Some (m :: l)) true quiet lg) =
    inl (BadParameter
      "Cannot simultaneously set 'all' parameter and specify models to download.")
  /\ trace (download od frc (Some (m :: l)) true quiet lg) = []
  /\ dispatched (trace (download od frc (Some (m :: l)) true quiet lg)) = []
  /\ configures_logging
       (trace (download od frc (Some (m :: l)) true quiet lg)) = false
  /\ logging_after (download od frc (Some (m :: l)) true quiet lg) = lg.
Proof.
  rewrite run_rejected by reflexivity. simpl. repeat split.
Qed.

(** C2: with no model argument ([None] or the empty list) and [--all]
    false, the resolved list is the default subset and the single call
    to [download_models] has exactly [with_layout], [with_tableformer],
    [with_code_formula], [with_picture_classifier] and [with_easyocr]
    true and the four other flags false. *)
Theorem C2_default_selection od frc models quiet lg :
  truthy models = false ->
  to_download models false =
    [LAYOUT; TABLEFORMER; CODE_FORMULA; PICTURE_CLASSIFIER; EASYOCR]
  /\ dispatched (trace (download od frc models false quiet lg)) =
       [ {| output_dir := od; force := frc; progress := negb quiet;
            with_layout := true;
            with_tableformer := true;
            with_code_formula := true;
            with_picture_classifier := true;
            with_smolvlm := false;
            with_smoldocling := false;
            with_smoldocling_mlx := false;
            with_granite_vision := false;
            with_easyocr := true |} ].
Proof.
  intros H. split.
  - rewrite to_download_falsy by exact H. reflexivity.
  - assert (Hv : truthy models && false = false) by apply andb_false_r.
    destruct (run_dispatch od frc models false quiet lg Hv)
      as [rest [Htr [Hd _]]].
    rewrite Htr. unfold dispatched in *. rewrite flat_map_app. simpl.
    rewrite Hd. rewrite to_download_falsy by exact H.
    destruct quiet; reflexivity.
Qed.

(** C3: with [--all] and no model argument, the resolved list is the
    whole enumeration and all nine [with_*] flags of the single call to
    [download_models] are true. *)
Theorem C3_all_selection od frc models quiet lg :
  truthy models = false ->
  to_download models true =
    [LAYOUT; TABLEFORMER; CODE_FORMULA; PICTURE_CLASSIFIER; SMOLVLM;
     SMOLDOCLING; SMOLDOCLING_MLX; GRANITE_VISION; EASYOCR]
  /\ dispatched (trace (download od frc models true quiet lg)) =
       [ {| output_dir := od; force := frc; progress := negb quiet;
            with_layout := true;
            with_tableformer := true;
            with_code_formula := true;
            with_picture_classifier := true;
            with_smolvlm := true;
            with_smoldocling := true;
            with_smoldocling_mlx := true;
            with_granite_vision := true;
            with_easyocr := true |} ].
Proof.
  intros H. split.
  - rewrite to_download_falsy by exact H. reflexivity.
  - assert (Hv : truthy models && true = false) by (rewrite H; reflexivity).
    destruct (run_dispatch od frc models true quiet lg Hv)
      as [rest [Htr [Hd _]]].
    rewrite Htr. unfold dispatched in *. rewrite flat_map_app. simpl.
    rewrite Hd. rewrite to_download_falsy by exact H.
    destruct quiet; reflexivity.
Qed.

(** C4: with a non-empty explicit list and [--all] false, the resolved
    list is the list given, there is one call to [download_models], each
    [with_*] flag of that call is true exactly when its identifier occurs
    in the list, and any reordering of the list leads to the same call. *)
Theorem C4_explicit_selection od frc l quiet lg :
  l <> [] ->
  to_download (Some l) false = l
  /\ (exists a,
        dispatched (trace (download od frc (Some l) false quiet lg)) = [a]
        /\ forall m, with_flag m a = true <-> In m l)
  /\ (forall l', Permutation l l' ->
        dispatched (trace (download od frc (Some l') false quiet lg)) =
        dispatched (trace (download od frc (Some l) false quiet lg))).
Proof.
  intros Hne.
  assert (Hsel : forall k, to_download (Some k) false = k \/ k = []).
  { intros [|x k]; [now right | now left]. }
  assert (Hdisp : forall k,
    dispatched (trace (download od frc (Some k) false quiet lg)) =
      [download_models_kwargs od frc quiet (to_download (Some k) false)]).
  { intros k.
    destruct (run_dispatch od frc (Some k) false quiet lg (andb_false_r _))
      as [rest [Htr [Hd _]]].
    rewrite Htr. unfold dispatched in *. rewrite flat_map_app. simpl.
    rewrite Hd. destruct quiet; reflexivity. }
  assert (Hl : to_download (Some l) false = l).
  { destruct (Hsel l) as [E|E]; [exact E | contradiction]. }
  split; [exact Hl | split].
  - eexists. split; [apply Hdisp |].
    intros m. rewrite with_flag_kwargs, Hl. apply py_in_In.
  - intros l' Hperm. rewrite !Hdisp. f_equal.
    assert (Hl' : to_download (Some l') false = l').
    { destruct (Hsel l') as [E|E]; [exact E |].
      subst l'. apply Permutation_sym, Permutation_nil in Hperm. contradiction. }
    rewrite Hl, Hl'. apply kwargs_same. intros m. split; intros Hin.
    + apply Permutation_in with (l := l'); [now apply Permutation_sym | exact Hin].
    + apply Permutation_in with (l := l); assumption.
Qed.

(** C5: in quiet mode, when validation passes and [download_models]
    returns a directory, the command completes and what it hands to
    standard output is that directory and nothing else: the only output
    effect is one [typer.echo] of the returned value. *)
Theorem C5_quiet_output od frc models all lg p :
  truthy models && all = false ->
  download_models
    (download_models_kwargs od frc true (to_download models all)) = inr p ->
  outcome (download od frc models all true lg) = inr tt
  /\ stdout (trace (download od frc models all true lg)) = [p]
  /\ trace (download od frc models all true lg) =
       [EvDownloadModels
          (download_models_kwargs od frc true (to_download models all));
        EvEcho p].
Proof.
  intros Hv Hp. rewrite (run_returned _ _ _ _ _ lg _ Hv Hp).
  simpl. repeat split.
Qed.

(** C6: an exception raised by [download_models] is the outcome of the
    command, unchanged; the collaborator was called once (no retry), the
    call is the last effect of the run and nothing is written. *)
Theorem C6_downloader_failure_propagates od frc models all quiet lg e :
  truthy models && all = false ->
  download_models
    (download_models_kwargs od frc quiet (to_download models all)) = inl e ->
  outcome (download od frc models all quiet lg) = inl (Propagated e)
  /\ dispatched (trace (download od frc models all quiet lg)) =
       [download_models_kwargs od frc quiet (to_download models all)]
  /\ (exists before,
        trace (download od frc models all quiet lg) =
          (before ++
           [EvDownloadModels
              (download_models_kwargs od frc quiet (to_download models all))])%list)
  /\ stdout (trace (download od frc models all quiet lg)) = [].
Proof.
  intros Hv He. rewrite (run_raised _ _ _ _ _ lg _ Hv He). simpl.
  split; [reflexivity |].
  split; [destruct quiet; reflexivity |].
  split; [exists (setup quiet); reflexivity |].
  destruct quiet; reflexivity.
Qed.

(** C7: every call to [download_models] made by the command carries the
    negation of the quiet flag as [progress], and the output directory
    and the force flag as they were given. *)
Theorem C7_dispatch_arguments od frc models all quiet lg a :
  In a (dispatched (trace (download od frc models all quiet lg))) ->
  progress a = negb quiet /\ output_dir a = od /\ force a = frc.
Proof.
  destruct (truthy models && all) eqn:Hv.
  - rewrite (run_rejected _ _ _ _ _ lg Hv). simpl. contradiction.
  - destruct (run_dispatch od frc models all quiet lg Hv)
      as [rest [Htr [Hd _]]].
    rewrite Htr. unfold dispatched in *. rewrite flat_map_app. simpl.
    rewrite Hd. intros Hin.
    assert (Ha : a = download_models_kwargs od frc quiet (to_download models all)).
    { destruct quiet; simpl in Hin; destruct Hin as [E|[]]; now subst a. }
    subst a. repeat split.
Qed.

(** C8, as amended: for every invocation that passes validation,
    [logging.basicConfig] is called if and only if quiet is false; when
    it is called, it is the first effect and the call to
    [download_models] follows it directly; in quiet mode the logging
    configuration of the process is left as it was. *)
Theorem C8_logging_iff_not_quiet od frc models all quiet lg :
  truthy models && all = false ->
  (configures_logging (trace (download od frc models all quiet lg)) = true
     <-> quiet = false)
  /\ (quiet = false ->
      exists rest,
        trace (download od frc models all quiet lg) =
          EvBasicConfig rich_config
          :: EvDownloadModels
               (download_models_kwargs od frc quiet (to_download models all))
          :: rest
        /\ configures_logging rest = false
        /\ dispatched rest = [])
  /\ (quiet = true ->
      logging_after (download od frc models all quiet lg) = lg).
Proof.
  intros Hv.
  destruct (run_dispatch od frc models all quiet lg Hv)
    as [rest [Htr [Hd [Hc Hlg]]]].
  rewrite Htr, Hlg. destruct quiet; simpl.
  - rewrite Hc. repeat split; try discriminate.
  - repeat split; try discriminate.
    intros _. exists rest. auto.
Qed.

(** C9: the empty explicit list behaves as no list at all: the run is
    the run with [None], so with [--all] no parameter error is raised
    and the whole enumeration is resolved and dispatched, and without
    [--all] the default subset is. *)
Theorem C9_empty_list_as_none od frc all quiet lg :
  download od frc (Some []) all quiet lg = download od frc None all quiet lg
  /\ (forall msg,
        outcome (download od frc (Some []) all quiet lg) <>
          inl (BadParameter msg))
  /\ to_download (Some []) all =
       (if all then list__AvailableModels else _default_models)
  /\ dispatched (trace (download od frc (Some []) all quiet lg)) =
       [download_models_kwargs od frc quiet
          (if all then list__AvailableModels else _default_models)].
Proof.
  assert (Hv : truthy (Some []) && all = false) by reflexivity.
  split; [reflexivity |].
  split.
  - intros msg.
    destruct (download_models
      (download_models_kwargs od frc quiet (to_download (Some []) all)))
      as [e|p] eqn:E.
    + rewrite (run_raised _ _ _ _ _ lg _ Hv E). simpl. discriminate.
    + rewrite (run_returned _ _ _ _ _ lg _ Hv E). simpl. discriminate.
  - split; [reflexivity |].
    destruct (run_dispatch od frc (Some []) all quiet lg Hv)
      as [rest [Htr [Hd _]]].
    rewrite Htr. unfold dispatched in *. rewrite flat_map_app. simpl.
    rewrite Hd. destruct quiet; reflexivity.
Qed.

(** C10: two explicit lists with the same identifiers, whatever their
    order and however often an identifier is repeated, give the same
    keyword arguments and the same run of the command; in particular a
    list and the list with one of its identifiers added once more do. *)
Theorem C10_flags_depend_on_set od frc all quiet lg l1 l2 :
  (forall m, In m l1 <-> In m l2) ->
  download_models_kwargs od frc quiet (to_download (Some l1) all) =
    download_models_kwargs od frc quiet (to_download (Some l2) all)
  /\ download od frc (Some l1) all quiet lg =
       download od frc (Some l2) all quiet lg
  /\ (forall m, In m l1 ->
        download od frc (Some (m :: l1)) all quiet lg =
          download od frc (Some l2) all quiet lg).
Proof.
  assert (Hkw : forall k1 k2, (forall m, In m k1 <-> In m k2) ->
    download_models_kwargs od frc quiet (to_download (Some k1) all) =
      download_models_kwargs od frc quiet (to_download (Some k2) all)).
  { intros k1 k2 H. pose proof (truthy_same k1 k2 H) as Ht.
    destruct (truthy (Some k1)) eqn:T1.
    - rewrite !to_download_truthy by congruence. now apply kwargs_same.
    - rewrite !to_download_falsy by congruence. reflexivity. }
  assert (Hrun : forall k1 k2, (forall m, In m k1 <-> In m k2) ->
    download od frc (Some k1) all quiet lg =
      download od frc (Some k2) all quiet lg).
  { intros k1 k2 H. pose proof (truthy_same k1 k2 H) as Ht.
    pose proof (Hkw k1 k2 H) as Hk.
    destruct (truthy (Some k1) && all) eqn:Hv.
    - rewrite !run_rejected; congruence.
    - assert (Hv2 : truthy (Some k2) && all = false) by congruence.
      destruct (download_models
        (download_models_kwargs od frc quiet (to_download (Some k1) all)))
        as [e|p] eqn:E.
      + rewrite (run_raised _ _ _ _ _ lg _ Hv E).
        rewrite Hk in E. rewrite (run_raised _ _ _ _ _ lg _ Hv2 E).
        now rewrite Hk.
      + rewrite (run_returned _ _ _ _ _ lg _ Hv E).
        rewrite Hk in E. rewrite (run_returned _ _ _ _ _ lg _ Hv2 E).
        now rewrite Hk. }
  intros H. split; [now apply Hkw | split; [now apply Hrun |]].
  intros m Hm. apply Hrun. intros x. rewrite <- H. simpl. split.
  - intros [->|Hx]; assumption.
  - intros Hx. now right.
Qed.

(** ** Further properties of the command *)

Lemma to_download_nonempty models all : to_download models all <> [].
Proof. destruct models as [[|m l]|], all; discriminate. Qed.

Lemma dispatched_middle pre a post :
  dispatched (pre ++ EvDownloadModels a :: post)%list <> [].
Proof.
  unfold dispatched. rewrite flat_map_app. simpl.
  destruct (flat_map dispatched_of pre); discriminate.
Qed.

(** Two invocations that pass validation and build the same keyword
    arguments are the same run. *)
Lemma run_same_kwargs od frc quiet lg models1 all1 models2 all2 :
  truthy models1 && all1 = false ->
  truthy models2 && all2 = false ->
  download_models_kwargs od frc quiet (to_download models1 all1) =
    download_models_kwargs od frc quiet (to_download models2 all2) ->
  download od frc models1 all1 quiet lg = download od frc models2 all2 quiet lg.
Proof.
  intros Hv1 Hv2 Hk.
  destruct (download_models
    (download_models_kwargs od frc quiet (to_download models1 all1)))
    as [e|p] eqn:E.
  - rewrite (run_raised _ _ _ _ _ lg _ Hv1 E).
    rewrite Hk in E. rewrite (run_raised _ _ _ _ _ lg _ Hv2 E).
    now rewrite Hk.
  - rewrite (run_returned _ _ _ _ _ lg _ Hv1 E).
    rewrite Hk in E. rewrite (run_returned _ _ _ _ _ lg _ Hv2 E).
    now rewrite Hk.
Qed.

(** Case analysis on a run: rejected, collaborator raised, collaborator
    returned. *)
Ltac run_cases od frc models all quiet lg :=
  let Hv := fresh "Hv" in
  let E := fresh "E" in
  let e := fresh "e" in
  let p := fresh "p" in
  destruct (truthy models && all) eqn:Hv;
  [ rewrite (run_rejected od frc models all quiet lg Hv)
  | destruct (download_models
      (download_models_kwargs od frc quiet (to_download models all)))
      as [e|p] eqn:E;
    [ rewrite (run_raised od frc models all quiet lg e Hv E)
    | rewrite (run_returned od frc models all quiet lg p Hv E) ] ].


(** X2: the collaborator is called exactly once on an invocation that
    passes validation, with the keyword arguments built from the options,
    and not at all on a rejected one; [logging.basicConfig] is called at
    most once. *)
Theorem X2_calls_at_most_once od frc models all quiet lg :
  dispatched (trace (download od frc models all quiet lg)) =
    (if truthy models && all then []
     else [download_models_kwargs od frc quiet (to_download models all)])
  /\ length (filter is_basicConfig
               (trace (download od frc models all quiet lg))) <= 1.
Proof.
  run_cases od frc models all quiet lg; simpl.
  - split; [reflexivity | auto].
  - destruct quiet; simpl; split; auto.
  - destruct quiet; simpl; split; auto.
Qed.

(** X3: the command never asks for nothing: the resolved list is never
    empty, and every call to [download_models] has at least one [with_*]
    flag set. *)
Theorem X3_selection_never_empty od frc models all quiet lg a :
  In a (dispatched (trace (download od frc models all quiet lg))) ->
  to_download models all <> []
  /\ exists m, with_flag m a = true.
Proof.
  intros Hin. split; [apply to_download_nonempty |].
  assert (Ha : a = download_models_kwargs od frc quiet (to_download models all)).
  { revert Hin. run_cases od frc models all quiet lg;
      destruct quiet; simpl; intros Hin;
      try contradiction; destruct Hin as [H|[]]; now subst a. }
  subst a.
  pose proof (to_download_nonempty models all) as Hne.
  destruct (to_download models all) as [|m sel]; [contradiction |].
  exists m. rewrite with_flag_kwargs. apply py_in_In. now left.
Qed.


(** X5: the order of the effects.  Wherever the call to
    [download_models] stands in the trace, nothing was written and no
    other call was made before it, and after it there is no further call
    and no logging set-up. *)
Theorem X5_effects_in_order od frc models all quiet lg before a after :
  trace (download od frc models all quiet lg) =
    (before ++ EvDownloadModels a :: after)%list ->
  stdout before = []
  /\ dispatched before = []
  /\ dispatched after = []
  /\ configures_logging after = false.
Proof.
  destruct (truthy models && all) eqn:Hv.
  - rewrite (run_rejected _ _ _ _ _ lg Hv). simpl.
    intros H. destruct before; discriminate H.
  - destruct (run_dispatch od frc models all quiet lg Hv)
      as [rest [Htr [Hd [Hc _]]]].
    rewrite Htr. destruct quiet; simpl; intros H.
    + destruct before as [|e before]; simpl in H.
      * injection H as _ <-. auto.
      * injection H as _ H. rewrite H in Hd.
        now apply dispatched_middle in Hd.
    + destruct before as [|e [|e' before]]; simpl in H.
      * discriminate H.
      * injection H as <- _ <-. auto.
      * injection H as _ _ H. rewrite H in Hd.
        now apply dispatched_middle in Hd.
Qed.


(** X7: in quiet mode the command never touches logging, on any
    invocation: rejected, failed or completed, there is no call to
    [logging.basicConfig] and the configuration is the one it found. *)
Theorem X7_quiet_never_configures od frc models all lg :
  configures_logging (trace (download od frc models all true lg)) = false
  /\ logging_after (download od frc models all true lg) = lg.
Proof.
  run_cases od frc models all true lg; simpl; split; reflexivity.
Qed.

(** X8: asking for more never deselects: when a non-empty explicit list
    is extended, every [with_*] flag that was set stays set.  The empty
    list is excluded because it stands for the default subset. *)
Theorem X8_selection_monotone od frc all quiet l1 l2 m :
  l1 <> [] ->
  incl l1 l2 ->
  with_flag m (download_models_kwargs od frc quiet (to_download (Some l1) all))
    = true ->
  with_flag m (download_models_kwargs od frc quiet (to_download (Some l2) all))
    = true.
Proof.
  intros Hne Hincl.
  destruct l1 as [|x l1]; [contradiction |].
  destruct l2 as [|y l2]; [destruct (Hincl x); now left |].
  rewrite !to_download_truthy by reflexivity.
  rewrite !with_flag_kwargs, !py_in_In. apply Hincl.
Qed.

(** X9: the implicit selections can be spelled out.  An explicit list
    with the identifiers of the default subset is the same run as no
    argument at all, and an explicit list with every identifier is the
    same run as [--all]. *)
Theorem X9_explicit_equals_implicit od frc l (all : bool) quiet lg :
  (forall m,
     In m l <-> In m (if all then list__AvailableModels else _default_models)) ->
  download od frc (Some l) false quiet lg = download od frc None all quiet lg.
Proof.
  intros H.
  assert (Hl : truthy (Some l) = true).
  { destruct l as [|x l]; [| reflexivity].
    exfalso. apply (proj2 (H LAYOUT)). destruct all; now left. }
  apply run_same_kwargs.
  - apply andb_false_r.
  - reflexivity.
  - rewrite to_download_truthy by exact Hl.
    rewrite to_download_falsy by reflexivity.
    now apply kwargs_same.
Qed.

(** X10: progress reporting and logging go together: in every call to
    [download_models] the [progress] flag is set exactly when the run
    configured logging. *)
Theorem X10_progress_matches_logging od frc models all quiet lg a :
  In a (dispatched (trace (download od frc models all quiet lg))) ->
  progress a = configures_logging (trace (download od frc models all quiet lg)).
Proof.
  run_cases od frc models all quiet lg;
    destruct quiet; simpl; intros Hin;
    try contradiction; destruct Hin as [H|[]]; now subst a.
Qed.

End Command.

Arguments mkRun {Exn A}.
Arguments trace {Exn A}.
Arguments logging_after {Exn A}.
Arguments outcome {Exn A}.
Arguments BadParameter {Exn}.
Arguments Propagated {Exn}.

Arguments download {Exn} download_models output_dir force models all quiet.

(** ** The properties on concrete invocations *)

Lemma C2_default_selection_witness :
  truthy (Some []) = false
  /\ to_download (Some []) false =
       [LAYOUT; TABLEFORMER; CODE_FORMULA; PICTURE_CLASSIFIER; EASYOCR]
  /\ dispatched
       (trace (download returning_downloader "cache/models" false (Some [])
                 false true None)) =
       [mkArgs "cache/models" false false
               true true true true false false false false true].
Proof.
  split; [reflexivity |].
  apply (C2_default_selection string returning_downloader
           "cache/models" false (Some []) true None).
  reflexivity.
Defined.

Lemma C3_all_selection_witness :
  truthy None = false
  /\ to_download None true =
       [LAYOUT; TABLEFORMER; CODE_FORMULA; PICTURE_CLASSIFIER; SMOLVLM;
        SMOLDOCLING; SMOLDOCLING_MLX; GRANITE_VISION; EASYOCR]
  /\ dispatched
       (trace (download returning_downloader "cache/models" true None
                 true false None)) =
       [mkArgs "cache/models" true true
               true true true true true true true true true].
Proof.
  split; [reflexivity |].
  apply (C3_all_selection string returning_downloader
           "cache/models" true None false None).
  reflexivity.
Defined.

Lemma C4_explicit_selection_witness :
  [EASYOCR; SMOLVLM] <> []
  /\ to_download (Some [EASYOCR; SMOLVLM]) false = [EASYOCR; SMOLVLM]
  /\ (exists a,
        dispatched
          (trace (download returning_downloader "cache/models" false
                    (Some [EASYOCR; SMOLVLM]) false false None)) = [a]
        /\ forall m, with_flag m a = true <-> In m [EASYOCR; SMOLVLM])
  /\ (forall l', Permutation [EASYOCR; SMOLVLM] l' ->
        dispatched
          (trace (download returning_downloader "cache/models" false
                    (Some l') false false None)) =
        dispatched
          (trace (download returning_downloader "cache/models" false
                    (Some [EASYOCR; SMOLVLM]) false false None))).
Proof.
  split; [discriminate |].
  apply (C4_explicit_selection string returning_downloader
           "cache/models" false [EASYOCR; SMOLVLM] false None).
  discriminate.
Defined.

Lemma C5_quiet_output_witness :
  truthy (Some [LAYOUT]) && false = false
  /\ returning_downloader
       (download_models_kwargs "cache/models" false true
          (to_download (Some [LAYOUT]) false)) = inr "cache/models"
  /\ outcome (download returning_downloader "cache/models" false
                (Some [LAYOUT]) false true None) = inr tt
  /\ stdout (trace (download returning_downloader "cache/models" false
                      (Some [LAYOUT]) false true None)) = ["cache/models"]
  /\ trace (download returning_downloader "cache/models" false
              (Some [LAYOUT]) false true None) =
       [EvDownloadModels
          (download_models_kwargs "cache/models" false true
             (to_download (Some [LAYOUT]) false));
        EvEcho "cache/models"].
Proof.
  split; [reflexivity |]. split; [reflexivity |].
  apply (C5_quiet_output string returning_downloader
           "cache/models" false (Some [LAYOUT]) false None "cache/models");
    reflexivity.
Defined.

Lemma C6_downloader_failure_propagates_witness :
  truthy None && true = false
  /\ failing_downloader
       (download_models_kwargs "cache/models" true false
          (to_download None true)) = inl "ConnectionError"
  /\ outcome (download failing_downloader "cache/models" true None
                true false None) = inl (Propagated "ConnectionError")
  /\ dispatched (trace (download failing_downloader "cache/models" true None
                          true false None)) =
       [download_models_kwargs "cache/models" true false
          (to_download None true)]
  /\ (exists before,
        trace (download failing_downloader "cache/models" true None
                 true false None) =
          (before ++
           [EvDownloadModels
              (download_models_kwargs "cache/models" true false
                 (to_download None true))])%list)
  /\ stdout (trace (download failing_downloader "cache/models" true None
                      true false None)) = [].
Proof.
  split; [reflexivity |]. split; [reflexivity |].
  apply (C6_downloader_failure_propagates string failing_downloader
           "cache/models" true None true false None "ConnectionError");
    reflexivity.
Defined.

Lemma C7_dispatch_arguments_witness :
  In (download_models_kwargs "out" true false [TABLEFORMER])
     (dispatched
        (trace (download returning_downloader "out" true (Some [TABLEFORMER])
                  false false None)))
  /\ progress (download_models_kwargs "out" true false [TABLEFORMER]) = negb false
  /\ output_dir (download_models_kwargs "out" true false [TABLEFORMER]) = "out"
  /\ force (download_models_kwargs "out" true false [TABLEFORMER]) = true.
Proof.
  split; [simpl; left; reflexivity |].
  apply (C7_dispatch_arguments string returning_downloader
           "out" true (Some [TABLEFORMER]) false false None
           (download_models_kwargs "out" true false [TABLEFORMER])).
  simpl. left. reflexivity.
Defined.

(** C8 as stated fails on an invocation that trips the validation in
    normal mode: quiet is false and logging is not configured. *)
Lemma C8_counterexample :
  ~ (configures_logging
       (trace (download returning_downloader "cache/models" false
                 (Some [LAYOUT]) true false None)) = true
     <-> false = false).
Proof.
  intros [_ H]. specialize (H eq_refl). simpl in H. discriminate H.
Qed.

Lemma C8_logging_iff_not_quiet_witness :
  truthy (Some [LAYOUT]) && false = false
  /\ (configures_logging
        (trace (download returning_downloader "cache/models" false
                  (Some [LAYOUT]) false false None)) = true
      <-> false = false)
  /\ (false = false ->
      exists rest,
        trace (download returning_downloader "cache/models" false
                 (Some [LAYOUT]) false false None) =
          EvBasicConfig rich_config
          :: EvDownloadModels
               (download_models_kwargs "cache/models" false false
                  (to_download (Some [LAYOUT]) false))
          :: rest
        /\ configures_logging rest = false
        /\ dispatched rest = [])
  /\ (false = true ->
      logging_after (download returning_downloader "cache/models" false
                       (Some [LAYOUT]) false false None) = None).
Proof.
  split; [reflexivity |].
  apply (C8_logging_iff_not_quiet string returning_downloader
           "cache/models" false (Some [LAYOUT]) false false None).
  reflexivity.
Defined.

Lemma C10_flags_depend_on_set_witness :
  (forall m, In m [EASYOCR; LAYOUT; EASYOCR] <-> In m [LAYOUT; EASYOCR])
  /\ download_models_kwargs "cache/models" false false
       (to_download (Some [EASYOCR; LAYOUT; EASYOCR]) false) =
     download_models_kwargs "cache/models" false false
       (to_download (Some [LAYOUT; EASYOCR]) false)
  /\ download returning_downloader "cache/models" false
       (Some [EASYOCR; LAYOUT; EASYOCR]) false false None =
     download returning_downloader "cache/models" false
       (Some [LAYOUT; EASYOCR]) false false None
  /\ (forall m, In m [EASYOCR; LAYOUT; EASYOCR] ->
        download returning_downloader "cache/models" false
          (Some (m :: [EASYOCR; LAYOUT; EASYOCR])) false false None =
        download returning_downloader "cache/models" false
          (Some [LAYOUT; EASYOCR]) false false None).
Proof.
  assert (H : forall m, In m [EASYOCR; LAYOUT; EASYOCR] <-> In m [LAYOUT; EASYOCR]).
  { intros m. simpl. tauto. }
  split; [exact H |].
  apply (C10_flags_depend_on_set string returning_downloader
           "cache/models" false false false None
           [EASYOCR; LAYOUT; EASYOCR] [LAYOUT; EASYOCR] H).
Defined.

(** A complete run in normal mode, from a process without logging
    handlers: set-up, dispatch, then the success message and the hint. *)
Example normal_run_default :
  download returning_downloader "m" false None false false None =
    mkRun
      [EvBasicConfig rich_config;
       EvDownloadModels
         (mkArgs "m" false true true true true true false false false false true);
       EvSecho (nl ++ "Models downloaded into: m.") "green";
       EvConsolePrint
         [nl;
          "Docling can now be configured for running offline using the local artifacts."
            ++ nl ++ nl;
          "Using the CLI:";
          "`docling --artifacts-path=m FILE`";
          nl;
          "Using Python: see the documentation at <https://docling-project.github.io/docling/usage>."]]
      (Some rich_config) (inr tt).
Proof. reflexivity. Qed.

(** The same invocation in quiet mode. *)
Example quiet_run_default :
  download returning_downloader "m" false None false true None =
    mkRun
      [EvDownloadModels
         (mkArgs "m" false false true true true true false false false false true);
       EvEcho "m"]
      None (inr tt).
Proof. reflexivity. Qed.

(** A failing collaborator in normal mode: logging was set up, the call
    was made once, the exception is the outcome. *)
Example failing_run_all :
  download failing_downloader "m" true (Some []) true false None =
    mkRun
      [EvBasicConfig rich_config;
       EvDownloadModels
         (mkArgs "m" true true true true true true true true true true true)]
      (Some rich_config) (inl (Propagated "ConnectionError")).
Proof. reflexivity. Qed.

(** ** The further properties on concrete invocations *)

Lemma X3_selection_never_empty_witness :
  In (download_models_kwargs "m" false true [SMOLDOCLING])
     (dispatched
        (trace (download returning_downloader "m" false (Some [SMOLDOCLING])
                  false true None)))
  /\ to_download (Some [SMOLDOCLING]) false <> []
  /\ exists m,
       with_flag m (download_models_kwargs "m" false true [SMOLDOCLING]) = true.
Proof.
  split; [simpl; left; reflexivity |].
  apply (X3_selection_never_empty string returning_downloader
           "m" false (Some [SMOLDOCLING]) false true None
           (download_models_kwargs "m" false true [SMOLDOCLING])).
  simpl. left. reflexivity.
Defined.

Lemma X5_effects_in_order_witness :
  trace (download returning_downloader "m" false None false false None) =
    ([EvBasicConfig rich_config] ++
     EvDownloadModels
       (download_models_kwargs "m" false false (to_download None false))
     :: report false "m")%list
  /\ stdout [EvBasicConfig rich_config] = []
  /\ dispatched [EvBasicConfig rich_config] = []
  /\ dispatched (report false "m") = []
  /\ configures_logging (report false "m") = false.
Proof.
  split; [reflexivity |].
  apply (X5_effects_in_order string returning_downloader
           "m" false None false false None
           [EvBasicConfig rich_config]
           (download_models_kwargs "m" false false (to_download None false))
           (report false "m")).
  reflexivity.
Defined.


Lemma X8_selection_monotone_witness :
  [LAYOUT] <> []
  /\ incl [LAYOUT] [SMOLVLM; LAYOUT]
  /\ with_flag LAYOUT
       (download_models_kwargs "m" false false
          (to_download (Some [LAYOUT]) false)) = true
  /\ with_flag LAYOUT
       (download_models_kwargs "m" false false
          (to_download (Some [SMOLVLM; LAYOUT]) false)) = true.
Proof.
  assert (Hincl : incl [LAYOUT] [SMOLVLM; LAYOUT]).
  { intros x [<-|[]]. simpl. auto. }
  split; [discriminate |]. split; [exact Hincl |]. split; [reflexivity |].
  apply (X8_selection_monotone "m" false false false
           [LAYOUT] [SMOLVLM; LAYOUT] LAYOUT);
    [discriminate | exact Hincl | reflexivity].
Defined.

Lemma X9_explicit_equals_implicit_witness :
  (forall m,
     In m [EASYOCR; LAYOUT; TABLEFORMER; CODE_FORMULA; PICTURE_CLASSIFIER]
     <-> In m (if false then list__AvailableModels else _default_models))
  /\ download returning_downloader "m" false
       (Some [EASYOCR; LAYOUT; TABLEFORMER; CODE_FORMULA; PICTURE_CLASSIFIER])
       false false None =
     download returning_downloader "m" false None false false None.
Proof.
  assert (H : forall m,
    In m [EASYOCR; LAYOUT; TABLEFORMER; CODE_FORMULA; PICTURE_CLASSIFIER]
    <-> In m (if false then list__AvailableModels else _default_models)).
  { intros m. simpl. tauto. }
  split; [exact H |].
  apply (X9_explicit_equals_implicit string returning_downloader
           "m" false
           [EASYOCR; LAYOUT; TABLEFORMER; CODE_FORMULA; PICTURE_CLASSIFIER]
           false false None H).
Defined.

Lemma X10_progress_matches_logging_witness :
  In (download_models_kwargs "m" false false [LAYOUT])
     (dispatched
        (trace (download returning_downloader "m" false (Some [LAYOUT])
                  false false None)))
  /\ progress (download_models_kwargs "m" false false [LAYOUT]) =
     configures_logging
       (trace (download returning_downloader "m" false (Some [LAYOUT])
                 false false None)).
Proof.
  split; [simpl; left; reflexivity |].
  apply (X10_progress_matches_logging string returning_downloader
           "m" false (Some [LAYOUT]) false false None
           (download_models_kwargs "m" false false [LAYOUT])).
  simpl. left. reflexivity.
Defined.

(** The empty list is where extending a request does deselect: it
    stands for the default subset, which a one-model list replaces. *)
Example empty_list_is_not_least :
  with_flag LAYOUT
    (download_models_kwargs "m" false false (to_download (Some []) false)) = true
  /\ with_flag LAYOUT
       (download_models_kwargs "m" false false
          (to_download (Some [SMOLVLM]) false)) = false.
Proof. split; reflexivity. Qed.
